(** * MSRApi: a shallow embedding of the MotorsportReg REST client

    The client of [msrapi/__init__.py] is a Python class whose methods build
    a URL with [str.format], hand it to the [requests] library and return
    what comes back. The embedding keeps that shape:

    - Python values are the inductive [PyVal]; [py_str] is Python's [str()]
      on them and [is_True] / [is_False] are the identity tests
      [x is True] / [x is False];
    - [PyFormat.format] is the fragment of [str.format] the templates use
      (literal text and explicitly numbered fields);
    - the instance is its attribute dictionary, a [gmap string PyVal];
    - the methods live in the monad [Py]: a world (the instance and the log
      of requests handed to the transport) is threaded through, and a call
      either returns or raises;
    - the [requests] transport, [Response.json] and [json.dumps] belong to
      libraries outside the repository and are parameters of the section. *)

From Stdlib Require Import ZArith Ascii String.
From stdpp Require Import gmap strings list fin_maps pretty.

Open Scope Z_scope.

(** ** Python values *)

Inductive PyVal : Type :=
| PyNone
| PyBool (b : bool)
| PyInt (z : Z)
| PyStr (s : string).

(** [str(v)], which is also what [format(v, "")] yields for these values. *)
Definition py_str (v : PyVal) : string :=
  match v with
  | PyNone => "None"
  | PyBool true => "True"
  | PyBool false => "False"
  | PyInt z => pretty z
  | PyStr s => s
  end.

(** [v is True] and [v is False]: identity with the two singletons, so no
    truthiness is involved ([1 is True] is false). *)
Definition is_True (v : PyVal) : bool :=
  match v with PyBool true => true | _ => false end.

Definition is_False (v : PyVal) : bool :=
  match v with PyBool false => true | _ => false end.

(** ** [str.format] on numbered fields *)

Module PyFormat.

Definition digit_of (c : ascii) : option nat :=
  let n := nat_of_ascii c in
  if ((48 <=? n) && (n <=? 57))%nat then Some (n - 48)%nat else None.

(** Where the scanner is: in literal text, or inside a replacement field
    whose index read so far is [index]. *)
Inductive Field : Type :=
| Outside
| Inside (index : option nat).

(** One pass over the template, left to right. The text substituted for
    a field is never scanned again. [None] stands for the [IndexError] of
    a field with no argument and for every template outside the fragment
    (brace escapes, automatic numbering, conversions, format specs), none
    of which occurs in the client. *)
Fixpoint format_from (fld : Field) (tmpl : string) (args : list PyVal)
  : option string :=
  match tmpl with
  | EmptyString =>
      match fld with Outside => Some EmptyString | Inside _ => None end
  | String c rest =>
      match fld with
      | Outside =>
          if Ascii.eqb c "{" then format_from (Inside None) rest args
          else if Ascii.eqb c "}" then None
          else String c <$> format_from Outside rest args
      | Inside index =>
          if Ascii.eqb c "}" then
            match index with
            | Some n =>
                v ← args !! n;
                String.append (py_str v) <$> format_from Outside rest args
            | None => None
            end
          else
            d ← digit_of c;
            format_from (Inside (Some (10 * default 0 index + d))%nat) rest args
      end
  end.

Definition format (tmpl : string) (args : list PyVal) : option string :=
  format_from Outside tmpl args.

End PyFormat.

(** ** Requests and responses of the [requests] library *)

Inductive Method : Type := GET | POST.

(** [requests.auth.HTTPBasicAuth(username, password)] *)
Record HTTPBasicAuth : Type := {
  auth_username : PyVal;
  auth_password : PyVal
}.

(** What a call of [requests.get] or [requests.post] hands to the
    transport: the URL and the keyword arguments [auth], [headers] and
    [data] (absent keywords are [None] and the empty dictionary). *)
Record Request : Type := {
  method : Method;
  url : string;
  auth : option HTTPBasicAuth;
  headers : gmap string PyVal;
  data : option string
}.

(** The response object: the status line, the raw body and the mutable
    [encoding] attribute. *)
Record Response : Type := {
  status_code : Z;
  content : string;
  encoding : option string
}.

(** [r.encoding = enc] *)
Definition set_encoding (r : Response) (enc : string) : Response :=
  {| status_code := status_code r; content := content r; encoding := Some enc |}.

(** Decoded JSON documents, which are also the payloads [json.dumps]
    accepts. *)
#[local] Unset Elimination Schemes.
Inductive Json : Type :=
| JNull
| JBool (b : bool)
| JInt (z : Z)
| JStr (s : string)
| JList (items : list Json)
| JDict (members : list (string * Json)).
#[local] Set Elimination Schemes.

(** ** Exceptions and the monad of method calls *)

Inductive PyExn : Type :=
| AttributeError (name : string)
| FormatError
| RequestException (reason : string)
| JSONDecodeError (reason : string).

Inductive Outcome (A : Type) : Type :=
| Returns (a : A)
| Raises (e : PyExn).
Arguments Returns {A} a.
Arguments Raises {A} e.

#[global] Instance Outcome_ret : MRet Outcome := @Returns.

#[global] Instance Outcome_bind : MBind Outcome :=
  fun A B k o =>
    match o with
    | Returns a => k a
    | Raises e => Raises e
    end.

#[global] Instance Outcome_fmap : FMap Outcome :=
  fun A B f o =>
    match o with
    | Returns a => Returns (f a)
    | Raises e => Raises e
    end.

(** The instance is its attribute dictionary; [sent] logs every request
    handed to the transport, oldest first. *)
Record World : Type := {
  self : gmap string PyVal;
  sent : list Request
}.

Definition Py (A : Type) : Type := World -> Outcome A * World.

#[global] Instance Py_ret : MRet Py :=
  fun A a w => (Returns a, w).

#[global] Instance Py_bind : MBind Py :=
  fun A B k m w =>
    match m w with
    | (Returns a, w') => k a w'
    | (Raises e, w') => (Raises e, w')
    end.

Definition lift_outcome {A : Type} (o : Outcome A) : Py A :=
  fun w => (o, w).

(** [self.name] *)
Definition getattr (name : string) : Py PyVal :=
  fun w =>
    match self w !! name with
    | Some v => (Returns v, w)
    | None => (Raises (AttributeError name), w)
    end.

(** [self.name = v] *)
Definition setattr (name : string) (v : PyVal) : Py unit :=
  fun w => (Returns tt, {| self := <[name := v]> (self w); sent := sent w |}).

(** [tmpl.format( *args )] *)
Definition str_format (tmpl : string) (args : list PyVal) : Py string :=
  lift_outcome
    match PyFormat.format tmpl args with
    | Some s => Returns s
    | None => Raises FormatError
    end.

Definition default_arg (dflt : PyVal) (given : option PyVal) : PyVal :=
  match given with Some v => v | None => dflt end.

(** What a method hands back: decoded JSON, or the response object. *)
Inductive Returned : Type :=
| RJson (doc : Json)
| RResponse (r : Response).

(** ** Calls of the public methods *)

(** One constructor per public method, with the arguments of the call; an
    optional flag that the caller leaves out is [None]. *)
Inductive Call : Type :=
| call_public_calendar (organization_id : PyVal)
| call_pr_calendar
| call_pr_venue_calendar (venue_id : PyVal)
| call_pr_calendar_by_type (type_id : PyVal)
| call_pr_attendees (event_id : PyVal) (include_questions : option PyVal)
| call_pr_assignments (event_id : PyVal)
    (include_instructors include_team : option PyVal)
| call_pr_assignments_by_segment (event_id segment_id : PyVal)
    (include_instructors include_team : option PyVal)
| call_pr_event_segments (event_id : PyVal)
| call_pr_members
| call_pr_member (member_id : PyVal)
    (include_questions include_history : option PyVal)
| call_pr_profile (profile_id : PyVal)
| call_pr_member_vehicles (member_id : PyVal)
| call_pr_member_vehicle (member_id vehicle_id : PyVal)
| call_pr_member_logbook (member_id : PyVal)
| call_pr_logbook_types
| call_pr_get_logbook_entry (logbook_entry_id : PyVal)
| call_pr_post_logbook_entry (payload : Json).

(** ** The contract table

    These definitions follow the specification's table of operations, not
    the code: the path of each endpoint with the ids substituted, the
    options its flags select, and the query they make. The theorems
    compare the URLs the methods build against them. *)

Module Contract.

Definition base : string := "https://api.motorsportreg.com/rest/".

Definition endpoint (c : Call) : string :=
  match c with
  | call_public_calendar o => "calendars/organization/" +:+ py_str o
  | call_pr_calendar => "calendars"
  | call_pr_venue_calendar v => "calendars/venue/" +:+ py_str v
  | call_pr_calendar_by_type t => "calendars/type/" +:+ py_str t
  | call_pr_attendees e _ => "events/" +:+ py_str e +:+ "/attendees"
  | call_pr_assignments e _ _ => "events/" +:+ py_str e +:+ "/assignments"
  | call_pr_assignments_by_segment e s _ _ =>
      "events/" +:+ py_str e +:+ "/segments/" +:+ py_str s +:+ "/assignments"
  | call_pr_event_segments e => "events/" +:+ py_str e +:+ "/segments"
  | call_pr_members => "members"
  | call_pr_member m _ _ => "members/" +:+ py_str m
  | call_pr_profile p => "profiles/" +:+ py_str p
  | call_pr_member_vehicles m => "members/" +:+ py_str m +:+ "/vehicles"
  | call_pr_member_vehicle m v =>
      "members/" +:+ py_str m +:+ "/vehicles/" +:+ py_str v
  | call_pr_member_logbook m => "members/" +:+ py_str m +:+ "/logbook"
  | call_pr_logbook_types => "logbooks/types"
  | call_pr_get_logbook_entry l => "logbooks/" +:+ py_str l
  | call_pr_post_logbook_entry _ => "logbooks"
  end.

(** The operations whose URL has at least one path parameter. *)
Definition path_parameterized (c : Call) : bool :=
  match c with
  | call_pr_calendar | call_pr_members | call_pr_logbook_types
  | call_pr_post_logbook_entry _ => false
  | _ => true
  end.

Definition is_public (c : Call) : bool :=
  match c with call_public_calendar _ => true | _ => false end.

Definition is_get (c : Call) : bool :=
  match c with call_pr_post_logbook_entry _ => false | _ => true end.

(** The inclusion flags of a call in declared order, each with the option
    it stands for and its value (the default when left out). *)
Definition flags (c : Call) : list (string * PyVal) :=
  match c with
  | call_pr_attendees _ q => [("questions", default_arg (PyBool true) q)]
  | call_pr_assignments _ i t | call_pr_assignments_by_segment _ _ i t =>
      [("instructors", default_arg (PyBool true) i);
       ("team", default_arg (PyBool true) t)]
  | call_pr_member _ q h =>
      [("questions", default_arg (PyBool true) q);
       ("history", default_arg (PyBool true) h)]
  | _ => []
  end.

Definition is_bool (v : PyVal) : bool :=
  match v with PyBool _ => true | _ => false end.

(** The options a call selects: those whose flag is [True], provided every
    flag of the call is a boolean. *)
Definition fields (c : Call) : list string :=
  if forallb (fun f => is_bool (snd f)) (flags c)
  then fst <$> filter (fun f => is_True (snd f) = true) (flags c)
  else [].

Fixpoint comma_join (l : list string) : string :=
  match l with
  | [] => ""
  | [x] => x
  | x :: rest => x +:+ "," +:+ comma_join rest
  end.

Definition query (opts : list string) : string :=
  match opts with
  | [] => ""
  | _ => "?fields=" +:+ comma_join opts
  end.

Definition url (c : Call) : string :=
  base +:+ endpoint c +:+ ".json" +:+ query (fields c).

(** The tie-break rule for two boolean flags, spelled out: [first] is the
    option declared first. *)
Definition two_flag_query (first second : string) (b1 b2 : bool) : string :=
  match b1, b2 with
  | true, true => "?fields=" +:+ first +:+ "," +:+ second
  | true, false => "?fields=" +:+ first
  | false, true => "?fields=" +:+ second
  | false, false => ""
  end.

End Contract.

(** ** Test doubles

    Concrete stand-ins for the three library parameters, used to run the
    client on explicit inputs. *)

Module Mock.

Definition response (status : Z) (body : string) : Response :=
  {| status_code := status; content := body; encoding := None |}.

(** A transport that answers every request with the same response. *)
Definition transport_fixed (r : Response) : Request -> Outcome Response :=
  fun _ => Returns r.

(** A transport whose connection always fails. *)
Definition transport_down : Request -> Outcome Response :=
  fun _ => Raises (RequestException "connection refused").

(** A decoder for three bodies; anything else is not JSON to it. *)
Definition Response_json (r : Response) : Outcome Json :=
  if String.eqb (content r) "null" then Returns JNull
  else if String.eqb (content r) "[]" then Returns (JList [])
  else if String.eqb (content r) "[1]" then Returns (JList [JInt 1])
  else Raises (JSONDecodeError "unexpected body").

Definition json_dumps (j : Json) : string :=
  match j with
  | JNull => "null"
  | JBool true => "true"
  | JBool false => "false"
  | JList [] => "[]"
  | JList [JInt 1] => "[1]"
  | JDict [] => "{}"
  | _ => "..."
  end.

End Mock.

(** ** The client *)

Section Client.

(** The libraries the module imports: [requests.get] / [requests.post]
    reach the network through [transport]; [Response_json] is the method
    [Response.json()]; [json_dumps] is [json.dumps]. *)
Variable transport : Request -> Outcome Response.
Variable Response_json : Response -> Outcome Json.
Variable json_dumps : Json -> string.

(** [requests.get(url, auth=..., headers=...)] *)
Definition requests_get (u : string) (a : option HTTPBasicAuth)
    (h : gmap string PyVal) : Py Response :=
  fun w =>
    let req := {| method := GET; url := u; auth := a; headers := h;
                  data := None |} in
    (transport req, {| self := self w; sent := sent w ++ [req] |}).

(** [requests.post(url, auth=..., headers=..., data=...)] *)
Definition requests_post (u : string) (a : option HTTPBasicAuth)
    (h : gmap string PyVal) (d : string) : Py Response :=
  fun w =>
    let req := {| method := POST; url := u; auth := a; headers := h;
                  data := Some d |} in
    (transport req, {| self := self w; sent := sent w ++ [req] |}).

Definition __init__ (organization_id username password : PyVal) : Py unit :=
  setattr "organization_id" organization_id;;
  setattr "username" username;;
  setattr "password" password;;
  setattr "url_prefix" (PyStr "https://api.motorsportreg.com/rest/").

Definition _public_request (rest_resource : string) : Py Json :=
  r ← requests_get rest_resource None ∅;
  let r := set_encoding r "utf-8" in
  lift_outcome (Response_json r).

Definition _authenticated_request (rest_resource : string) : Py Json :=
  username ← getattr "username";
  password ← getattr "password";
  organization_id ← getattr "organization_id";
  r ← requests_get rest_resource
        (Some {| auth_username := username; auth_password := password |})
        {[ "X-Organization-Id" := organization_id ]};
  let r := set_encoding r "utf-8" in
  lift_outcome (Response_json r).

Definition public_calendar (organization_id : PyVal) : Py Json :=
  url_prefix ← getattr "url_prefix";
  resource ← str_format "{0}calendars/organization/{1}.json"
                        [url_prefix; organization_id];
  response ← _public_request resource;
  mret response.

Definition pr_calendar : Py Json :=
  url_prefix ← getattr "url_prefix";
  resource ← str_format "{0}calendars.json" [url_prefix];
  response ← _authenticated_request resource;
  mret response.

Definition pr_venue_calendar (venue_id : PyVal) : Py Json :=
  url_prefix ← getattr "url_prefix";
  resource ← str_format "{0}calendars/venue/{1}.json" [url_prefix; venue_id];
  response ← _authenticated_request resource;
  mret response.

Definition pr_calendar_by_type (type_id : PyVal) : Py Json :=
  url_prefix ← getattr "url_prefix";
  resource ← str_format "{0}calendars/type/{1}.json" [url_prefix; type_id];
  response ← _authenticated_request resource;
  mret response.

Definition pr_attendees (event_id : PyVal) (include_questions : option PyVal)
    : Py Json :=
  let include_questions := default_arg (PyBool true) include_questions in
  url_prefix ← getattr "url_prefix";
  resource ←
    (if is_True include_questions then
       str_format "{0}events/{1}/attendees.json?fields=questions"
                  [url_prefix; event_id]
     else
       str_format "{0}events/{1}/attendees.json" [url_prefix; event_id]);
  response ← _authenticated_request resource;
  mret response.

Definition pr_assignments (event_id : PyVal)
    (include_instructors include_team : option PyVal) : Py Json :=
  let include_instructors := default_arg (PyBool true) include_instructors in
  let include_team := default_arg (PyBool true) include_team in
  url_prefix ← getattr "url_prefix";
  resource ←
    (if is_True include_instructors && is_True include_team then
       str_format "{0}events/{1}/assignments.json?fields=instructors,team"
                  [url_prefix; event_id]
     else if is_True include_instructors && is_False include_team then
       str_format "{0}events/{1}/assignments.json?fields=instructors"
                  [url_prefix; event_id]
     else if is_False include_instructors && is_True include_team then
       str_format "{0}events/{1}/assignments.json?fields=team"
                  [url_prefix; event_id]
     else
       str_format "{0}events/{1}/assignments.json" [url_prefix; event_id]);
  response ← _authenticated_request resource;
  mret response.

Definition pr_assignments_by_segment (event_id segment_id : PyVal)
    (include_instructors include_team : option PyVal) : Py Json :=
  let include_instructors := default_arg (PyBool true) include_instructors in
  let include_team := default_arg (PyBool true) include_team in
  url_prefix ← getattr "url_prefix";
  resource ←
    (if is_True include_instructors && is_True include_team then
       str_format
         "{0}events/{1}/segments/{2}/assignments.json?fields=instructors,team"
         [url_prefix; event_id; segment_id]
     else if is_True include_instructors && is_False include_team then
       str_format
         "{0}events/{1}/segments/{2}/assignments.json?fields=instructors"
         [url_prefix; event_id; segment_id]
     else if is_False include_instructors && is_True include_team then
       str_format "{0}events/{1}/segments/{2}/assignments.json?fields=team"
                  [url_prefix; event_id; segment_id]
     else
       str_format "{0}events/{1}/segments/{2}/assignments.json"
                  [url_prefix; event_id; segment_id]);
  response ← _authenticated_request resource;
  mret response.

Definition pr_event_segments (event_id : PyVal) : Py Json :=
  url_prefix ← getattr "url_prefix";
  resource ← str_format "{0}events/{1}/segments.json" [url_prefix; event_id];
  response ← _authenticated_request resource;
  mret response.

Definition pr_members : Py Json :=
  url_prefix ← getattr "url_prefix";
  resource ← str_format "{0}members.json" [url_prefix];
  response ← _authenticated_request resource;
  mret response.

Definition pr_member (member_id : PyVal)
    (include_questions include_history : option PyVal) : Py Json :=
  let include_questions := default_arg (PyBool true) include_questions in
  let include_history := default_arg (PyBool true) include_history in
  url_prefix ← getattr "url_prefix";
  resource ←
    (if is_True include_questions && is_True include_history then
       str_format "{0}members/{1}.json?fields=questions,history"
                  [url_prefix; member_id]
     else if is_True include_questions && is_False include_history then
       str_format "{0}members/{1}.json?fields=questions"
                  [url_prefix; member_id]
     else if is_False include_questions && is_True include_history then
       str_format "{0}members/{1}.json?fields=history" [url_prefix; member_id]
     else
       str_format "{0}members/{1}.json" [url_prefix; member_id]);
  response ← _authenticated_request resource;
  mret response.

Definition pr_profile (profile_id : PyVal) : Py Json :=
  url_prefix ← getattr "url_prefix";
  resource ← str_format "{0}profiles/{1}.json" [url_prefix; profile_id];
  response ← _authenticated_request resource;
  mret response.

Definition pr_member_vehicles (member_id : PyVal) : Py Json :=
  url_prefix ← getattr "url_prefix";
  resource ← str_format "{0}members/{1}/vehicles.json" [url_prefix; member_id];
  response ← _authenticated_request resource;
  mret response.

Definition pr_member_vehicle (member_id vehicle_id : PyVal) : Py Json :=
  url_prefix ← getattr "url_prefix";
  resource ← str_format "{0}members/{1}/vehicles/{2}.json"
                        [url_prefix; member_id; vehicle_id];
  response ← _authenticated_request resource;
  mret response.

Definition pr_member_logbook (member_id : PyVal) : Py Json :=
  url_prefix ← getattr "url_prefix";
  resource ← str_format "{0}members/{1}/logbook.json" [url_prefix; member_id];
  response ← _authenticated_request resource;
  mret response.

Definition pr_logbook_types : Py Json :=
  url_prefix ← getattr "url_prefix";
  resource ← str_format "{0}logbooks/types.json" [url_prefix];
  response ← _authenticated_request resource;
  mret response.

Definition pr_get_logbook_entry (logbook_entry_id : PyVal) : Py Json :=
  url_prefix ← getattr "url_prefix";
  resource ← str_format "{0}logbooks/{1}.json" [url_prefix; logbook_entry_id];
  response ← _authenticated_request resource;
  mret response.

Definition pr_post_logbook_entry (payload : Json) : Py Response :=
  url_prefix ← getattr "url_prefix";
  resource ← str_format "{0}logbooks.json" [url_prefix];
  username ← getattr "username";
  password ← getattr "password";
  organization_id ← getattr "organization_id";
  r ← requests_post resource
        (Some {| auth_username := username; auth_password := password |})
        (<[ "content-type" := PyStr "application/vnd.pukkasoft+json" ]>
           {[ "X-Organization-Id" := organization_id ]})
        (json_dumps payload);
  mret r.

(** ** Dispatch *)

Definition returning_json (m : Py Json) : Py Returned :=
  doc ← m; mret (RJson doc).

Definition invoke (c : Call) : Py Returned :=
  match c with
  | call_public_calendar o => returning_json (public_calendar o)
  | call_pr_calendar => returning_json pr_calendar
  | call_pr_venue_calendar v => returning_json (pr_venue_calendar v)
  | call_pr_calendar_by_type t => returning_json (pr_calendar_by_type t)
  | call_pr_attendees e q => returning_json (pr_attendees e q)
  | call_pr_assignments e i t => returning_json (pr_assignments e i t)
  | call_pr_assignments_by_segment e s i t =>
      returning_json (pr_assignments_by_segment e s i t)
  | call_pr_event_segments e => returning_json (pr_event_segments e)
  | call_pr_members => returning_json pr_members
  | call_pr_member m q h => returning_json (pr_member m q h)
  | call_pr_profile p => returning_json (pr_profile p)
  | call_pr_member_vehicles m => returning_json (pr_member_vehicles m)
  | call_pr_member_vehicle m v => returning_json (pr_member_vehicle m v)
  | call_pr_member_logbook m => returning_json (pr_member_logbook m)
  | call_pr_logbook_types => returning_json pr_logbook_types
  | call_pr_get_logbook_entry l => returning_json (pr_get_logbook_entry l)
  | call_pr_post_logbook_entry payload =>
      r ← pr_post_logbook_entry payload; mret (RResponse r)
  end.

(** [MSRAPi(organization_id, username, password)]: a fresh object, then
    [__init__]. [log] is what the transport has seen so far. *)
Definition MSRAPi (organization_id username password : PyVal)
    (log : list Request) : World :=
  snd (__init__ organization_id username password {| self := ∅; sent := log |}).

(** The requests a call hands to the transport. *)
Definition issued (c : Call) (w : World) : list Request :=
  drop (length (sent w)) (sent (snd (invoke c w))).

(** A computation that leaves the instance as it found it, whatever it
    returns or raises. *)
Definition preserves_self {A : Type} (m : Py A) : Prop :=
  ∀ w, self (m w).2 = self w.

(** The attribute dictionary [__init__] builds. *)
Definition attrs (org u p : PyVal) : gmap string PyVal :=
  <[ "url_prefix" := PyStr "https://api.motorsportreg.com/rest/" ]>
    (<[ "password" := p ]>
      (<[ "username" := u ]>
        (<[ "organization_id" := org ]> ∅))).

(** The request the contract table prescribes for a call on a client
    constructed with [org], [u] and [p]: the method, the contract's URL,
    credentials and organization header unless the operation is public, and
    for the POST the content type and the serialized payload. *)
Definition expected_request (org u p : PyVal) (c : Call) : Request :=
  {| method := if Contract.is_get c then GET else POST;
     url := Contract.url c;
     auth := if Contract.is_public c then None
             else Some {| auth_username := u; auth_password := p |};
     headers :=
       if Contract.is_public c then ∅
       else if Contract.is_get c then {[ "X-Organization-Id" := org ]}
       else <[ "content-type" := PyStr "application/vnd.pukkasoft+json" ]>
              {[ "X-Organization-Id" := org ]};
     data := match c with
             | call_pr_post_logbook_entry payload => Some (json_dumps payload)
             | _ => None
             end |}.

(** What the caller gets once the transport has answered [o]: the GET
    methods decode the body, read as UTF-8; the POST hands [o] over. *)
Definition expected_outcome (c : Call) (o : Outcome Response) : Outcome Returned :=
  if Contract.is_get c then
    RJson <$> (o ≫= fun r => Response_json (set_encoding r "utf-8"))
  else RResponse <$> o.

(** The request a call builds on an instance whose attributes currently
    hold [pfx], [org], [u] and [p], whatever they were at construction. *)
Definition request_from (pfx org u p : PyVal) (c : Call) : Request :=
  {| method := if Contract.is_get c then GET else POST;
     url := py_str pfx +:+ Contract.endpoint c +:+ ".json"
              +:+ Contract.query (Contract.fields c);
     auth := if Contract.is_public c then None
             else Some {| auth_username := u; auth_password := p |};
     headers :=
       if Contract.is_public c then ∅
       else if Contract.is_get c then {[ "X-Organization-Id" := org ]}
       else <[ "content-type" := PyStr "application/vnd.pukkasoft+json" ]>
              {[ "X-Organization-Id" := org ]};
     data := match c with
             | call_pr_post_logbook_entry payload => Some (json_dumps payload)
             | _ => None
             end |}.

(** A computation that hands nothing to the transport. *)
Definition quiet {A : Type} (m : Py A) : Prop :=
  ∀ w, sent (m w).2 = sent w.

(** A computation that either raises before anything is sent, or hands
    exactly one request to the transport, after the ones already logged. *)
Definition one_shot {A : Type} (m : Py A) : Prop :=
  ∀ w, (sent (m w).2 = sent w ∧ ∃ e, (m w).1 = Raises e)
       ∨ (∃ req, sent (m w).2 = sent w ++ [req]).


(** ** Running the monad *)

Lemma append_assoc (s1 s2 s3 : string) :
  (s1 +:+ s2) +:+ s3 = s1 +:+ (s2 +:+ s3).
Proof.
  induction s1 as [|c s1 IH]; [reflexivity|].
  change (String c ((s1 +:+ s2) +:+ s3) = String c (s1 +:+ (s2 +:+ s3))).
  by rewrite IH.
Qed.

Lemma bind_Returns {A B : Type} (m : Py A) (k : A → Py B) w a w' :
  m w = (Returns a, w') → (m ≫= k) w = k a w'.
Proof. intros H. unfold mbind, Py_bind. by rewrite H. Qed.

Lemma bind_Raises {A B : Type} (m : Py A) (k : A → Py B) w e w' :
  m w = (Raises e, w') → (m ≫= k) w = (Raises e, w').
Proof. intros H. unfold mbind, Py_bind. by rewrite H. Qed.

Lemma bind_mret {A : Type} (m : Py A) w : (m ≫= mret) w = m w.
Proof. unfold mbind, Py_bind. by destruct (m w) as [[a|e] w']. Qed.

Lemma bind_fmap {A B : Type} (m : Py A) (f : A → B) w :
  (m ≫= fun a => mret (f a)) w = (f <$> (m w).1, (m w).2).
Proof. unfold mbind, Py_bind. by destruct (m w) as [[a|e] w']. Qed.

Lemma getattr_Some name v w :
  self w !! name = Some v → getattr name w = (Returns v, w).
Proof. intros H. unfold getattr. by rewrite H. Qed.

Lemma getattr_None name w :
  self w !! name = None → getattr name w = (Raises (AttributeError name), w).
Proof. intros H. unfold getattr. by rewrite H. Qed.

(** ** The constructed client *)

Lemma MSRAPi_world org u p log :
  MSRAPi org u p log = {| self := attrs org u p; sent := log |}.
Proof. reflexivity. Qed.

Lemma attrs_organization_id org u p :
  attrs org u p !! "organization_id" = Some org.
Proof. unfold attrs. by simplify_map_eq. Qed.

Lemma attrs_username org u p : attrs org u p !! "username" = Some u.
Proof. unfold attrs. by simplify_map_eq. Qed.

Lemma attrs_password org u p : attrs org u p !! "password" = Some p.
Proof. unfold attrs. by simplify_map_eq. Qed.

Lemma attrs_url_prefix org u p :
  attrs org u p !! "url_prefix" = Some (PyStr Contract.base).
Proof. unfold attrs. by simplify_map_eq. Qed.

Create HintDb attrs.
#[local] Hint Resolve attrs_organization_id attrs_username attrs_password
  attrs_url_prefix : attrs.

Ltac read_attr :=
  erewrite bind_Returns by (apply getattr_Some; cbn [self]; auto with attrs).

(** ** The two dispatch primitives *)

Lemma public_request_run resource w :
  _public_request resource w =
    let req := {| method := GET; url := resource; auth := None;
                  headers := ∅; data := None |} in
    (transport req ≫= (fun r => Response_json (set_encoding r "utf-8")),
     {| self := self w; sent := sent w ++ [req] |}).
Proof.
  unfold _public_request, mbind at 1, Py_bind, requests_get. cbn zeta.
  by destruct (transport _).
Qed.

Lemma authenticated_request_run org u p log resource :
  _authenticated_request resource {| self := attrs org u p; sent := log |} =
    let req := {| method := GET; url := resource;
                  auth := Some {| auth_username := u; auth_password := p |};
                  headers := {[ "X-Organization-Id" := org ]};
                  data := None |} in
    (transport req ≫= (fun r => Response_json (set_encoding r "utf-8")),
     {| self := attrs org u p; sent := log ++ [req] |}).
Proof.
  unfold _authenticated_request.
  do 3 read_attr.
  unfold mbind at 1, Py_bind, requests_get. cbn zeta.
  by destruct (transport _).
Qed.

(** ** Every method on a constructed client *)

Ltac build_resource := erewrite bind_Returns by reflexivity.

(** The request the method built is the expected one: the two URLs differ
    only in how the appends are nested. *)
Ltac same_request :=
  cbn zeta; cbn [fst snd];
  match goal with
  | |- context [transport ?req] =>
      replace (expected_request _ _ _ _) with req; [reflexivity|]
  end;
  unfold expected_request; cbn [Contract.is_get Contract.is_public];
  f_equal; unfold Contract.url, Contract.endpoint;
  rewrite ?append_assoc; reflexivity.

Ltac run_get :=
  rewrite bind_fmap; read_attr; build_resource; rewrite bind_mret;
  first [ rewrite authenticated_request_run | rewrite public_request_run ];
  same_request.

Lemma invoke_MSRAPi org u p log c :
  invoke c (MSRAPi org u p log) =
    (expected_outcome c (transport (expected_request org u p c)),
     {| self := attrs org u p; sent := log ++ [expected_request org u p c] |}).
Proof.
  rewrite MSRAPi_world.
  destruct c; cbn [invoke]; unfold returning_json;
    repeat match goal with
           | flag : option PyVal |- _ => destruct flag as [[|[]| |]|]
           end;
    unfold public_calendar, pr_calendar, pr_venue_calendar,
      pr_calendar_by_type, pr_attendees, pr_assignments,
      pr_assignments_by_segment, pr_event_segments, pr_members, pr_member,
      pr_profile, pr_member_vehicles, pr_member_vehicle, pr_member_logbook,
      pr_logbook_types, pr_get_logbook_entry, pr_post_logbook_entry;
    try run_get.
  rewrite bind_fmap. read_attr. build_resource.
  do 3 read_attr. rewrite bind_mret.
  unfold requests_post. same_request.
Qed.

(** On an instance without [url_prefix] every method stops at its first
    line: the [AttributeError] reaches the caller and nothing is sent. *)
Lemma invoke_without_url_prefix c w :
  self w !! "url_prefix" = None →
  invoke c w = (Raises (AttributeError "url_prefix"), w).
Proof.
  intros Hmissing.
  destruct c; cbn [invoke]; unfold returning_json;
    unfold public_calendar, pr_calendar, pr_venue_calendar,
      pr_calendar_by_type, pr_attendees, pr_assignments,
      pr_assignments_by_segment, pr_event_segments, pr_members, pr_member,
      pr_profile, pr_member_vehicles, pr_member_vehicle, pr_member_logbook,
      pr_logbook_types, pr_get_logbook_entry, pr_post_logbook_entry;
    cbn zeta;
    (erewrite bind_Raises; [reflexivity|]);
    (erewrite bind_Raises; [reflexivity|]);
    by apply getattr_None.
Qed.

Lemma issued_MSRAPi org u p log c :
  issued c (MSRAPi org u p log) = [expected_request org u p c].
Proof.
  unfold issued. rewrite invoke_MSRAPi. cbn [snd sent].
  rewrite MSRAPi_world. cbn [sent]. by rewrite drop_app_length.
Qed.

Lemma outcome_MSRAPi org u p log c :
  (invoke c (MSRAPi org u p log)).1 =
    expected_outcome c (transport (expected_request org u p c)).
Proof. by rewrite invoke_MSRAPi. Qed.

(** ** The frame: which computations leave the instance alone *)

Lemma preserves_self_ret {A : Type} (a : A) : preserves_self (mret a).
Proof. by intros w. Qed.

Lemma preserves_self_bind {A B : Type} (m : Py A) (k : A → Py B) :
  preserves_self m → (∀ a, preserves_self (k a)) → preserves_self (m ≫= k).
Proof.
  intros Hm Hk w. unfold mbind, Py_bind.
  specialize (Hm w). destruct (m w) as [[a|e] w']; cbn in *; [|done].
  by rewrite Hk.
Qed.

Lemma preserves_self_lift {A : Type} (o : Outcome A) :
  preserves_self (lift_outcome o).
Proof. by intros w. Qed.

Lemma preserves_self_getattr name : preserves_self (getattr name).
Proof. intros w. unfold getattr. by destruct (self w !! name). Qed.

Lemma preserves_self_requests_get u a h : preserves_self (requests_get u a h).
Proof. by intros w. Qed.

Lemma preserves_self_requests_post u a h d :
  preserves_self (requests_post u a h d).
Proof. by intros w. Qed.

Ltac frame :=
  repeat first
    [ apply preserves_self_ret
    | apply preserves_self_lift
    | apply preserves_self_getattr
    | apply preserves_self_requests_get
    | apply preserves_self_requests_post
    | apply preserves_self_bind; [|intros ?]
    | match goal with
      | |- preserves_self (if ?b then _ else _) => destruct b
      end ].

Lemma preserves_self_public_request resource :
  preserves_self (_public_request resource).
Proof. unfold _public_request. frame. Qed.

Lemma preserves_self_authenticated_request resource :
  preserves_self (_authenticated_request resource).
Proof. unfold _authenticated_request. frame. Qed.

Lemma preserves_self_invoke c : preserves_self (invoke c).
Proof.
  destruct c; cbn [invoke]; unfold returning_json;
    unfold public_calendar, pr_calendar, pr_venue_calendar,
      pr_calendar_by_type, pr_attendees, pr_assignments,
      pr_assignments_by_segment, pr_event_segments, pr_members, pr_member,
      pr_profile, pr_member_vehicles, pr_member_vehicle, pr_member_logbook,
      pr_logbook_types, pr_get_logbook_entry, pr_post_logbook_entry,
      str_format;
    repeat first
      [ apply preserves_self_public_request
      | apply preserves_self_authenticated_request
      | progress frame ].
Qed.

(** ** Construction *)

(** C8: for every [organization_id], [username] and [password] the
    constructor returns without raising (it validates nothing), stores the
    three values verbatim under their attribute names, sets [url_prefix] to
    the fixed string "https://api.motorsportreg.com/rest/", creates no other
    attribute and sends nothing. *)
Theorem init_stores_verbatim (organization_id username password : PyVal)
    (log : list Request) :
  let run := __init__ organization_id username password
               {| self := ∅; sent := log |} in
  run.1 = Returns tt
  ∧ self run.2 !! "organization_id" = Some organization_id
  ∧ self run.2 !! "username" = Some username
  ∧ self run.2 !! "password" = Some password
  ∧ self run.2 !! "url_prefix"
      = Some (PyStr "https://api.motorsportreg.com/rest/")
  ∧ dom (self run.2)
      = ({[ "organization_id"; "username"; "password"; "url_prefix" ]}
          : gset string)
  ∧ sent run.2 = log.
Proof.
  cbn zeta.
  change (__init__ organization_id username password
            {| self := ∅; sent := log |})
    with (Returns tt,
          {| self := attrs organization_id username password; sent := log |}).
  cbn [fst snd self sent].
  split_and!.
  - reflexivity.
  - apply attrs_organization_id.
  - apply attrs_username.
  - apply attrs_password.
  - apply attrs_url_prefix.
  - unfold attrs. rewrite !dom_insert_L, dom_empty_L. set_solver.
  - reflexivity.
Qed.

(** ** URLs *)

(** C1, amended: for every path-parameterized operation and every value of
    its path parameters, a constructed client sends one request whose URL
    is the base prefix, the endpoint with the ids substituted and ".json",
    followed by the "?fields=" query of the options the call selects; when
    the call selects none (every operation without inclusion flags) the URL
    ends in ".json". In particular [public_calendar] with organization id
    42 builds "https://api.motorsportreg.com/rest/calendars/organization/42.json". *)
Theorem path_parameterized_url org u p log :
  (∀ c : Call,
     Contract.path_parameterized c = true →
     url <$> issued c (MSRAPi org u p log)
       = [Contract.base +:+ Contract.endpoint c +:+ ".json"
            +:+ Contract.query (Contract.fields c)]
     ∧ (Contract.fields c = [] →
        url <$> issued c (MSRAPi org u p log)
          = [Contract.base +:+ Contract.endpoint c +:+ ".json"]))
  ∧ url <$> issued (call_public_calendar (PyInt 42)) (MSRAPi org u p log)
    = ["https://api.motorsportreg.com/rest/calendars/organization/42.json"].
Proof.
  split.
  - intros c _. rewrite issued_MSRAPi.
    split; [reflexivity|]. intros Hnone.
    cbn [fmap list_fmap expected_request url]. unfold Contract.url.
    rewrite Hnone. reflexivity.
  - rewrite issued_MSRAPi. reflexivity.
Qed.

(** C2: for the three operations with two inclusion flags and each of the
    four combinations of boolean flag values, the URL carries both options
    comma-joined in declared order when both flags are True (instructors
    before team, questions before history), the one option whose flag is
    True when exactly one is, and no "fields" parameter when both are
    False. *)
Theorem two_flag_urls org u p log (event_id segment_id member_id : PyVal)
    (b1 b2 : bool) :
  url <$> issued
      (call_pr_assignments event_id (Some (PyBool b1)) (Some (PyBool b2)))
      (MSRAPi org u p log)
    = [Contract.base +:+ "events/" +:+ py_str event_id
         +:+ "/assignments.json"
         +:+ Contract.two_flag_query "instructors" "team" b1 b2]
  ∧ url <$> issued
      (call_pr_assignments_by_segment event_id segment_id
         (Some (PyBool b1)) (Some (PyBool b2)))
      (MSRAPi org u p log)
    = [Contract.base +:+ "events/" +:+ py_str event_id +:+ "/segments/"
         +:+ py_str segment_id +:+ "/assignments.json"
         +:+ Contract.two_flag_query "instructors" "team" b1 b2]
  ∧ url <$> issued
      (call_pr_member member_id (Some (PyBool b1)) (Some (PyBool b2)))
      (MSRAPi org u p log)
    = [Contract.base +:+ "members/" +:+ py_str member_id +:+ ".json"
         +:+ Contract.two_flag_query "questions" "history" b1 b2].
Proof.
  rewrite !issued_MSRAPi.
  cbn [fmap list_fmap expected_request url].
  unfold Contract.url, Contract.endpoint.
  rewrite ?append_assoc.
  by destruct b1, b2.
Qed.

(** C10: every inclusion flag defaults to True. Leaving the flags out is
    the same call as passing True for each, on every client, and on a
    constructed client its URL carries "fields" with all the options of the
    operation. *)
Theorem flags_default_to_True org u p log (event_id segment_id member_id : PyVal) :
  let yes := Some (PyBool true) in
  (∀ w, invoke (call_pr_attendees event_id None) w
        = invoke (call_pr_attendees event_id yes) w)
  ∧ (∀ w, invoke (call_pr_assignments event_id None None) w
          = invoke (call_pr_assignments event_id yes yes) w)
  ∧ (∀ w, invoke (call_pr_assignments_by_segment event_id segment_id None None) w
          = invoke (call_pr_assignments_by_segment event_id segment_id yes yes) w)
  ∧ (∀ w, invoke (call_pr_member member_id None None) w
          = invoke (call_pr_member member_id yes yes) w)
  ∧ url <$> issued (call_pr_attendees event_id None) (MSRAPi org u p log)
    = [Contract.base +:+ "events/" +:+ py_str event_id
         +:+ "/attendees.json?fields=questions"]
  ∧ url <$> issued (call_pr_assignments event_id None None)
              (MSRAPi org u p log)
    = [Contract.base +:+ "events/" +:+ py_str event_id
         +:+ "/assignments.json?fields=instructors,team"]
  ∧ url <$> issued (call_pr_assignments_by_segment event_id segment_id None None)
              (MSRAPi org u p log)
    = [Contract.base +:+ "events/" +:+ py_str event_id +:+ "/segments/"
         +:+ py_str segment_id +:+ "/assignments.json?fields=instructors,team"]
  ∧ url <$> issued (call_pr_member member_id None None) (MSRAPi org u p log)
    = [Contract.base +:+ "members/" +:+ py_str member_id
         +:+ ".json?fields=questions,history"].
Proof.
  cbn zeta. repeat split; try reflexivity.
  all: rewrite issued_MSRAPi;
    cbn [fmap list_fmap expected_request url];
    unfold Contract.url, Contract.endpoint;
    rewrite ?append_assoc; reflexivity.
Qed.

(** ** Authentication *)

(** C3: every authenticated operation of a constructed client sends one
    request, which carries the Basic credentials given to the constructor
    and the header "X-Organization-Id" with the constructor's organization
    id; the public operation sends one request with no credentials and no
    such header. *)
Theorem credentials_attached org u p log (c : Call) :
  ∃ req : Request,
    issued c (MSRAPi org u p log) = [req]
    ∧ if Contract.is_public c
      then auth req = None ∧ headers req !! "X-Organization-Id" = None
      else auth req = Some {| auth_username := u; auth_password := p |}
           ∧ headers req !! "X-Organization-Id" = Some org.
Proof.
  exists (expected_request org u p c).
  split; [apply issued_MSRAPi|].
  destruct c; cbn [Contract.is_public expected_request Contract.is_get auth headers];
    split; try reflexivity; by simplify_map_eq.
Qed.

(** ** The write operation *)

(** C5: for every payload, [pr_post_logbook_entry] on a constructed client
    sends one POST to the logbooks endpoint whose body is [json.dumps] of
    the payload, with Basic credentials, the organization header and the
    content type "application/vnd.pukkasoft+json", and hands back what the
    transport answered, undecoded. *)
Theorem post_logbook_entry_request org u p log (payload : Json) :
  ∃ req : Request,
    pr_post_logbook_entry payload (MSRAPi org u p log)
      = (transport req, {| self := self (MSRAPi org u p log);
                           sent := log ++ [req] |})
    ∧ method req = POST
    ∧ url req = "https://api.motorsportreg.com/rest/logbooks.json"
    ∧ data req = Some (json_dumps payload)
    ∧ headers req !! "content-type"
        = Some (PyStr "application/vnd.pukkasoft+json")
    ∧ headers req !! "X-Organization-Id" = Some org
    ∧ auth req = Some {| auth_username := u; auth_password := p |}.
Proof.
  eexists. split.
  - rewrite MSRAPi_world. unfold pr_post_logbook_entry.
    read_attr. build_resource. do 3 read_attr. rewrite bind_mret.
    unfold requests_post. reflexivity.
  - cbn [method url data headers auth]. split_and!; reflexivity.
Qed.

(** ** Outcomes *)

(** C6, amended: every call on a constructed client hands exactly one
    request to the transport. If the transport fails, the call raises that
    same error. If the transport answers, whatever the status code, a GET
    operation returns what decoding the body as UTF-8 JSON gives (the
    document, or the decoder's error) and [pr_post_logbook_entry] returns
    the response object undecoded. *)
Theorem one_request_no_status_check org u p log (c : Call) :
  ∃ req : Request,
    issued c (MSRAPi org u p log) = [req]
    ∧ (∀ e, transport req = Raises e →
            (invoke c (MSRAPi org u p log)).1 = Raises e)
    ∧ (∀ r, transport req = Returns r →
            (invoke c (MSRAPi org u p log)).1
              = if Contract.is_get c
                then RJson <$> Response_json (set_encoding r "utf-8")
                else Returns (RResponse r)).
Proof.
  exists (expected_request org u p c).
  split; [apply issued_MSRAPi|].
  rewrite outcome_MSRAPi. unfold expected_outcome.
  split; intros x Hx; rewrite Hx; by destruct (Contract.is_get c).
Qed.

(** C4: when the transport answers every request with a response whose
    body decodes to the document [doc], every GET operation of a
    constructed client returns exactly [doc], and [pr_post_logbook_entry]
    returns exactly the response object the transport answered. *)
Theorem pass_through org u p log (doc : Json) (c : Call) :
  (∀ req, ∃ r, transport req = Returns r
               ∧ Response_json (set_encoding r "utf-8") = Returns doc) →
  if Contract.is_get c
  then (invoke c (MSRAPi org u p log)).1 = Returns (RJson doc)
  else ∃ req, issued c (MSRAPi org u p log) = [req]
              ∧ (invoke c (MSRAPi org u p log)).1
                  = RResponse <$> transport req.
Proof.
  intros Hfixed. rewrite outcome_MSRAPi. unfold expected_outcome.
  destruct (Contract.is_get c).
  - destruct (Hfixed (expected_request org u p c)) as (r & -> & Hdoc).
    cbn. by rewrite Hdoc.
  - eexists. split; [apply issued_MSRAPi|reflexivity].
Qed.

(** ** The frame *)

(** C7: for every operation, every client state and every outcome of the
    call, the attributes of the instance (so [organization_id], [username],
    [password] and [url_prefix]) are after the call what they were before;
    the constructor is the only code that writes an attribute. *)
Theorem calls_leave_state_unchanged (c : Call) (w : World) :
  self (invoke c w).2 = self w
  ∧ (invoke c w).2.(self) !! "organization_id" = self w !! "organization_id"
  ∧ (invoke c w).2.(self) !! "username" = self w !! "username"
  ∧ (invoke c w).2.(self) !! "password" = self w !! "password"
  ∧ (invoke c w).2.(self) !! "url_prefix" = self w !! "url_prefix".
Proof.
  pose proof (preserves_self_invoke c w) as H.
  rewrite H. by split_and!.
Qed.

(** ** Calls on an instance whose attributes were reassigned *)

Ltac read_current :=
  erewrite bind_Returns by (apply getattr_Some; eassumption).

Lemma authenticated_request_current org u p resource w :
  self w !! "username" = Some u →
  self w !! "password" = Some p →
  self w !! "organization_id" = Some org →
  _authenticated_request resource w =
    let req := {| method := GET; url := resource;
                  auth := Some {| auth_username := u; auth_password := p |};
                  headers := {[ "X-Organization-Id" := org ]};
                  data := None |} in
    (transport req ≫= (fun r => Response_json (set_encoding r "utf-8")),
     {| self := self w; sent := sent w ++ [req] |}).
Proof.
  intros Hu Hp Horg. unfold _authenticated_request.
  do 3 read_current.
  unfold mbind at 1, Py_bind, requests_get. cbn zeta.
  by destruct (transport _).
Qed.

Ltac same_request_from :=
  cbn zeta; cbn [fst snd];
  match goal with
  | |- context [transport ?req] =>
      replace (request_from _ _ _ _ _) with req; [reflexivity|]
  end;
  unfold request_from; cbn [Contract.is_get Contract.is_public];
  f_equal; unfold Contract.endpoint;
  rewrite ?append_assoc; reflexivity.

Ltac run_get_current :=
  rewrite bind_fmap; read_current; build_resource; rewrite bind_mret;
  first [ erewrite authenticated_request_current by eassumption
        | rewrite public_request_run ];
  same_request_from.

Lemma invoke_current pfx org u p c w :
  self w !! "url_prefix" = Some pfx →
  (Contract.is_public c = false →
   self w !! "username" = Some u
   ∧ self w !! "password" = Some p
   ∧ self w !! "organization_id" = Some org) →
  invoke c w =
    (expected_outcome c (transport (request_from pfx org u p c)),
     {| self := self w; sent := sent w ++ [request_from pfx org u p c] |}).
Proof.
  intros Hpfx Hcred.
  destruct c; cbn [invoke]; unfold returning_json;
    try (destruct (Hcred eq_refl) as (Hu & Hp & Horg));
    repeat match goal with
           | flag : option PyVal |- _ => destruct flag as [[|[]| |]|]
           end;
    unfold public_calendar, pr_calendar, pr_venue_calendar,
      pr_calendar_by_type, pr_attendees, pr_assignments,
      pr_assignments_by_segment, pr_event_segments, pr_members, pr_member,
      pr_profile, pr_member_vehicles, pr_member_vehicle, pr_member_logbook,
      pr_logbook_types, pr_get_logbook_entry, pr_post_logbook_entry;
    try run_get_current.
  rewrite bind_fmap. read_current. build_resource.
  do 3 read_current. rewrite bind_mret.
  unfold requests_post. same_request_from.
Qed.

(** X1: the methods read the attributes when they are called. On any
    instance that holds [url_prefix] (and, for an authenticated operation,
    the three credentials), whatever their current values, a call sends
    exactly one request: its URL starts with the text of the current
    [url_prefix], and an authenticated one carries the current username,
    password and organization id. The instance is left as it was. *)
Theorem calls_read_current_attributes pfx org u p (c : Call) (w : World) :
  self w !! "url_prefix" = Some pfx →
  (Contract.is_public c = false →
   self w !! "username" = Some u
   ∧ self w !! "password" = Some p
   ∧ self w !! "organization_id" = Some org) →
  ∃ req : Request,
    invoke c w = (expected_outcome c (transport req),
                  {| self := self w; sent := sent w ++ [req] |})
    ∧ url req = py_str pfx +:+ Contract.endpoint c +:+ ".json"
                  +:+ Contract.query (Contract.fields c)
    ∧ if Contract.is_public c
      then auth req = None ∧ headers req = ∅
      else auth req = Some {| auth_username := u; auth_password := p |}
           ∧ headers req !! "X-Organization-Id" = Some org.
Proof.
  intros Hpfx Hcred. exists (request_from pfx org u p c).
  split; [by apply invoke_current|]. split; [reflexivity|].
  destruct c; cbn [Contract.is_public request_from Contract.is_get auth headers];
    split; try reflexivity; by simplify_map_eq.
Qed.

(** ** What reaches the transport, on any instance *)

Lemma quiet_ret {A : Type} (a : A) : quiet (mret a).
Proof. by intros w. Qed.

Lemma quiet_lift {A : Type} (o : Outcome A) : quiet (lift_outcome o).
Proof. by intros w. Qed.

Lemma quiet_getattr name : quiet (getattr name).
Proof. intros w. unfold getattr. by destruct (self w !! name). Qed.

Lemma quiet_bind {A B : Type} (m : Py A) (k : A → Py B) :
  quiet m → (∀ a, quiet (k a)) → quiet (m ≫= k).
Proof.
  intros Hm Hk w. unfold mbind, Py_bind.
  specialize (Hm w). destruct (m w) as [[a|e] w']; cbn in *; [|done].
  by rewrite Hk.
Qed.

Ltac quiet_steps :=
  repeat first
    [ apply quiet_ret
    | apply quiet_lift
    | apply quiet_getattr
    | apply quiet_bind; [|intros ?]
    | match goal with
      | |- quiet (if ?b then _ else _) => destruct b
      end ].

Lemma one_shot_requests_get u a h : one_shot (requests_get u a h).
Proof. intros w. right. by eexists. Qed.

Lemma one_shot_requests_post u a h d : one_shot (requests_post u a h d).
Proof. intros w. right. by eexists. Qed.

Lemma one_shot_after_quiet {A B : Type} (m : Py A) (k : A → Py B) :
  quiet m → (∀ a, one_shot (k a)) → one_shot (m ≫= k).
Proof.
  intros Hm Hk w. unfold mbind, Py_bind.
  specialize (Hm w). destruct (m w) as [[a|e] w']; cbn in *.
  - rewrite <- Hm. apply Hk.
  - left. eauto.
Qed.

Lemma one_shot_then_quiet {A B : Type} (m : Py A) (k : A → Py B) :
  one_shot m → (∀ a, quiet (k a)) → one_shot (m ≫= k).
Proof.
  intros Hm Hk w. unfold mbind, Py_bind.
  specialize (Hm w). destruct (m w) as [[a|e] w']; cbn in *.
  - destruct Hm as [(_ & e & He)|[req Hreq]]; [done|].
    right. exists req. by rewrite Hk.
  - destruct Hm as [(Hsame & _)|Hm]; [left; eauto|right; exact Hm].
Qed.

Ltac one_shot_steps :=
  repeat first
    [ apply one_shot_requests_get
    | apply one_shot_requests_post
    | apply one_shot_after_quiet; [solve [quiet_steps]|intros ?]
    | apply one_shot_then_quiet; [|intros ?; solve [quiet_steps]] ].

Lemma one_shot_invoke c : one_shot (invoke c).
Proof.
  destruct c; cbn [invoke]; unfold returning_json;
    unfold public_calendar, pr_calendar, pr_venue_calendar,
      pr_calendar_by_type, pr_attendees, pr_assignments,
      pr_assignments_by_segment, pr_event_segments, pr_members, pr_member,
      pr_profile, pr_member_vehicles, pr_member_vehicle, pr_member_logbook,
      pr_logbook_types, pr_get_logbook_entry, pr_post_logbook_entry,
      _public_request, _authenticated_request, str_format;
    cbn zeta; one_shot_steps.
Qed.

(** X2: on any instance, whatever its attributes hold, a call either
    raises before anything reaches the transport or hands it exactly one
    request, logged after the earlier ones. No call returns a value without
    asking the transport, and none sends twice. *)
Theorem at_most_one_request (c : Call) (w : World) :
  (sent (invoke c w).2 = sent w ∧ ∃ e, (invoke c w).1 = Raises e)
  ∨ (∃ req, sent (invoke c w).2 = sent w ++ [req]).
Proof. apply one_shot_invoke. Qed.

(** ** Calls do not see earlier calls *)











(** ** Flags that are not booleans, ids that are not plain *)

(** X4: the flags are compared by identity with [True] and [False]. A
    [pr_attendees] flag that is anything but [True] asks for no questions,
    and when either flag of a two-flag operation is neither [True] nor
    [False], no "fields" parameter is sent at all, even if the other flag
    is [True]. *)
Theorem flags_compared_by_identity org u p log
    (event_id segment_id member_id q i t : PyVal) :
  (is_True q = false →
   url <$> issued (call_pr_attendees event_id (Some q)) (MSRAPi org u p log)
     = [Contract.base +:+ "events/" +:+ py_str event_id +:+ "/attendees.json"])
  ∧ ((is_True i || is_False i) && (is_True t || is_False t) = false →
     url <$> issued (call_pr_assignments event_id (Some i) (Some t))
               (MSRAPi org u p log)
       = [Contract.base +:+ "events/" +:+ py_str event_id
            +:+ "/assignments.json"]
     ∧ url <$> issued
           (call_pr_assignments_by_segment event_id segment_id (Some i) (Some t))
           (MSRAPi org u p log)
       = [Contract.base +:+ "events/" +:+ py_str event_id +:+ "/segments/"
            +:+ py_str segment_id +:+ "/assignments.json"]
     ∧ url <$> issued (call_pr_member member_id (Some i) (Some t))
               (MSRAPi org u p log)
       = [Contract.base +:+ "members/" +:+ py_str member_id +:+ ".json"]).
Proof.
  rewrite !issued_MSRAPi.
  cbn [fmap list_fmap expected_request url].
  unfold Contract.url, Contract.endpoint. rewrite ?append_assoc.
  split.
  - intros Hq. destruct q as [|[]| |]; try discriminate Hq; reflexivity.
  - intros Hit.
    destruct i as [|[]| |], t as [|[]| |]; try discriminate Hit;
      split_and!; reflexivity.
Qed.

(** X5: path parameters are inserted as they are, separators included, so
    an id that contains a slash reaches another endpoint: on a constructed
    client, [pr_member] (no inclusions) for the id "<m>/vehicles" is the
    very call [pr_member_vehicles] makes for [m], and for the id
    "<m>/vehicles/<v>" the call [pr_member_vehicle] makes for [m] and
    [v]. *)
Theorem path_parameters_not_escaped org u p log (m v : PyVal) :
  let no := Some (PyBool false) in
  invoke (call_pr_member (PyStr (py_str m +:+ "/vehicles")) no no)
         (MSRAPi org u p log)
    = invoke (call_pr_member_vehicles m) (MSRAPi org u p log)
  ∧ invoke (call_pr_member
              (PyStr (py_str m +:+ "/vehicles/" +:+ py_str v)) no no)
           (MSRAPi org u p log)
    = invoke (call_pr_member_vehicle m v) (MSRAPi org u p log).
Proof.
  cbn zeta. rewrite !invoke_MSRAPi. split; reflexivity.
Qed.

(** X6: only [pr_post_logbook_entry] sends a body or a content type. Every
    other operation of a constructed client sends a GET without body and
    without "content-type", with no header besides "X-Organization-Id";
    the POST carries a body and exactly the two headers. *)
Theorem only_post_sends_a_body org u p log (c : Call) :
  ∃ req : Request,
    issued c (MSRAPi org u p log) = [req]
    ∧ match c with
      | call_pr_post_logbook_entry payload =>
          method req = POST
          ∧ data req = Some (json_dumps payload)
          ∧ dom (headers req)
            = ({[ "X-Organization-Id"; "content-type" ]} : gset string)
      | _ =>
          method req = GET
          ∧ data req = None
          ∧ headers req !! "content-type" = None
          ∧ dom (headers req) ⊆ ({[ "X-Organization-Id" ]} : gset string)
      end.
Proof.
  exists (expected_request org u p c).
  split; [apply issued_MSRAPi|].
  destruct c;
    cbn [expected_request Contract.is_get Contract.is_public
         method data headers];
    split_and!; try reflexivity;
    rewrite ?dom_insert_L, ?dom_singleton_L, ?dom_empty_L; set_solver.
Qed.

(** ** Construction over an existing instance *)

(** X7: [__init__] can run on any instance: it never raises, sends
    nothing, overwrites the four attributes and keeps every other one. Run
    again on a constructed client with new credentials, it leaves exactly
    the client a fresh construction with them would give. *)
Theorem init_overwrites org u p (w : World) :
  (__init__ org u p w).1 = Returns tt
  ∧ sent (__init__ org u p w).2 = sent w
  ∧ self (__init__ org u p w).2 = attrs org u p ∪ self w
  ∧ (∀ org' u' p' log,
       (__init__ org u p (MSRAPi org' u' p' log)).2 = MSRAPi org u p log).
Proof.
  assert (∀ w', self (__init__ org u p w').2 = attrs org u p ∪ self w')
    as Hself.
  { intros w'. change (self (__init__ org u p w').2)
      with (<[ "url_prefix" := PyStr "https://api.motorsportreg.com/rest/" ]>
              (<[ "password" := p ]>
                 (<[ "username" := u ]>
                    (<[ "organization_id" := org ]> (self w'))))).
    unfold attrs. by rewrite <- !insert_union_l, (left_id_L ∅ (∪)). }
  split_and!; [reflexivity|reflexivity|apply Hself|].
  intros org' u' p' log.
  change (__init__ org u p (MSRAPi org' u' p' log)).2
    with {| self := self (__init__ org u p (MSRAPi org' u' p' log)).2;
            sent := log |}.
  rewrite Hself, !MSRAPi_world. cbn [self]. reflexivity.
Qed.

(** ** Missing credentials *)

Lemma credentials_missing {A : Type} (k : PyVal → PyVal → PyVal → Py A) w :
  self w !! "username" = None
  ∨ self w !! "password" = None
  ∨ self w !! "organization_id" = None →
  ∃ name,
    (username ← getattr "username";
     password ← getattr "password";
     organization_id ← getattr "organization_id";
     k username password organization_id) w
    = (Raises (AttributeError name), w).
Proof.
  intros Hmissing.
  destruct (self w !! "username") as [u|] eqn:Hu;
    [read_current|eexists; by erewrite bind_Raises by by apply getattr_None].
  destruct (self w !! "password") as [p|] eqn:Hp;
    [read_current|eexists; by erewrite bind_Raises by by apply getattr_None].
  destruct (self w !! "organization_id") as [org|] eqn:Horg;
    [|eexists; by erewrite bind_Raises by by apply getattr_None].
  by destruct Hmissing as [?|[?|?]].
Qed.

(** X8: an authenticated operation never goes out without credentials. On
    an instance that lacks [username], [password] or [organization_id],
    every operation but [public_calendar] raises [AttributeError] and
    nothing reaches the transport: there is no unauthenticated attempt. *)
Theorem no_request_without_credentials (c : Call) (w : World) :
  Contract.is_public c = false →
  self w !! "username" = None
  ∨ self w !! "password" = None
  ∨ self w !! "organization_id" = None →
  invoke c w = ((invoke c w).1, w)
  ∧ ∃ name, (invoke c w).1 = Raises (AttributeError name).
Proof.
  intros Hprivate Hmissing.
  destruct (self w !! "url_prefix") as [pfx|] eqn:Hpfx;
    [|rewrite invoke_without_url_prefix by done; eauto].
  assert (∃ name, invoke c w = (Raises (AttributeError name), w))
    as [name ->]; [|eauto].
  destruct c; try discriminate Hprivate; cbn [invoke];
    unfold returning_json;
    repeat match goal with
           | flag : option PyVal |- _ => destruct flag as [[|[]| |]|]
           end;
    unfold pr_calendar, pr_venue_calendar,
      pr_calendar_by_type, pr_attendees, pr_assignments,
      pr_assignments_by_segment, pr_event_segments, pr_members, pr_member,
      pr_profile, pr_member_vehicles, pr_member_vehicle, pr_member_logbook,
      pr_logbook_types, pr_get_logbook_entry, pr_post_logbook_entry;
    cbn zeta;
    match goal with
    | |- ∃ name, (?m ≫= ?k) w = _ =>
        assert (∃ name, m w = (Raises (AttributeError name), w))
          as [name Hraise];
        [|exists name; by erewrite bind_Raises by exact Hraise]
    end;
    read_current; build_resource;
    try (rewrite bind_mret; unfold _authenticated_request);
    by apply credentials_missing.
Qed.

(** ** Integer ids *)

Lemma length_append (s1 s2 : string) :
  String.length (s1 +:+ s2) = (String.length s1 + String.length s2)%nat.
Proof.
  induction s1 as [|c s1 IH]; [reflexivity|].
  change (S (String.length (s1 +:+ s2))
          = S (String.length s1 + String.length s2)).
  by rewrite IH.
Qed.

Lemma append_inj_r (s1 s2 t : string) : s1 +:+ t = s2 +:+ t → s1 = s2.
Proof.
  assert (∀ s, t ≠ String.append s t ∨ s = "") as Hshorter.
  { intros s. destruct s as [|c s]; [by right|left]. intros Heq.
    apply (f_equal String.length) in Heq.
    rewrite length_append in Heq. cbn in Heq. lia. }
  revert s2. induction s1 as [|c1 s1 IH]; intros [|c2 s2] Heq.
  - done.
  - by destruct (Hshorter (String c2 s2)).
  - by destruct (Hshorter (String c1 s1)) as [Hne|?]; [destruct Hne|].
  - injection Heq as -> Heq. f_equal. by apply IH.
Qed.

(** X9: for each operation with a single path parameter (the flag
    operations with their flags held fixed), two different integer ids
    never give the same URL. *)
Theorem distinct_integer_ids_distinct_urls org u p log (q i t : option PyVal)
    (mk : PyVal → Call) (z1 z2 : Z) :
  mk ∈ [ call_public_calendar; call_pr_venue_calendar;
         call_pr_calendar_by_type; call_pr_event_segments; call_pr_profile;
         call_pr_member_vehicles; call_pr_member_logbook;
         call_pr_get_logbook_entry;
         (fun v => call_pr_attendees v q);
         (fun v => call_pr_assignments v i t);
         (fun v => call_pr_member v i t) ] →
  z1 ≠ z2 →
  url <$> issued (mk (PyInt z1)) (MSRAPi org u p log)
    ≠ url <$> issued (mk (PyInt z2)) (MSRAPi org u p log).
Proof.
  intros Hmk Hne. rewrite !issued_MSRAPi. intros Heq. apply Hne.
  cbn [fmap list_fmap expected_request url] in Heq.
  injection Heq as Heq. unfold Contract.url in Heq.
  apply String.app_inj in Heq.
  repeat (apply elem_of_cons in Hmk as [->|Hmk]);
    [..|by apply elem_of_nil in Hmk];
    cbn [Contract.endpoint Contract.fields Contract.flags] in Heq;
    rewrite ?append_assoc in Heq;
    apply String.app_inj in Heq;
    apply append_inj_r in Heq;
    exact (pretty_Z_inj z1 z2 Heq).
Qed.

End Client.

(** ** Independence of the public operation from the credentials *)

(** C9: two clients constructed with any credentials send, for
    [public_calendar] with the same argument, the same request: a GET of
    the organization's calendar URL with no credentials and no headers; and
    when the transports answer that request alike, the two calls have the
    same outcome. *)
Theorem public_calendar_ignores_credentials
    (transport1 transport2 : Request → Outcome Response)
    (Response_json : Response → Outcome Json) (json_dumps : Json → string)
    (org1 u1 p1 org2 u2 p2 : PyVal) (log1 log2 : list Request)
    (organization_id : PyVal) :
  let c := call_public_calendar organization_id in
  let req := {| method := GET;
                url := Contract.base +:+ "calendars/organization/"
                         +:+ py_str organization_id +:+ ".json";
                auth := None; headers := ∅; data := None |} in
  issued transport1 Response_json json_dumps c (MSRAPi org1 u1 p1 log1) = [req]
  ∧ issued transport2 Response_json json_dumps c (MSRAPi org2 u2 p2 log2) = [req]
  ∧ (transport1 req = transport2 req →
     (invoke transport1 Response_json json_dumps c (MSRAPi org1 u1 p1 log1)).1
     = (invoke transport2 Response_json json_dumps c (MSRAPi org2 u2 p2 log2)).1).
Proof.
  intros c req.
  assert (∀ org u p, expected_request json_dumps org u p c = req) as Hreq
    by reflexivity.
  rewrite !issued_MSRAPi, !outcome_MSRAPi, !Hreq.
  split_and!; [reflexivity..|].
  by intros ->.
Qed.

(** ** The charset the server declares *)

(** X10: the decoding of a GET answer does not depend on the encoding the
    response declares, since it is overwritten with "utf-8" before the body
    is decoded: two transports whose answers to the request have the same
    status and body give the call the same outcome, whatever encodings the
    two responses carry. *)
Theorem declared_encoding_ignored
    (transport1 transport2 : Request → Outcome Response)
    (Response_json : Response → Outcome Json) (json_dumps : Json → string)
    (org u p : PyVal) (log : list Request) (c : Call) (r1 r2 : Response) :
  Contract.is_get c = true →
  status_code r1 = status_code r2 →
  content r1 = content r2 →
  ∃ req : Request,
    issued transport1 Response_json json_dumps c (MSRAPi org u p log) = [req]
    ∧ issued transport2 Response_json json_dumps c (MSRAPi org u p log) = [req]
    ∧ (transport1 req = Returns r1 →
       transport2 req = Returns r2 →
       (invoke transport1 Response_json json_dumps c (MSRAPi org u p log)).1
       = (invoke transport2 Response_json json_dumps c (MSRAPi org u p log)).1).
Proof.
  intros Hget Hstatus Hcontent.
  exists (expected_request json_dumps org u p c).
  rewrite !issued_MSRAPi, !outcome_MSRAPi.
  split_and!; [reflexivity..|].
  intros -> ->. unfold expected_outcome. rewrite Hget. cbn.
  unfold set_encoding. by rewrite Hstatus, Hcontent.
Qed.

(** ** The client on explicit inputs *)

Example format_calendar_42 :
  PyFormat.format "{0}calendars/organization/{1}.json"
    [PyStr "https://api.motorsportreg.com/rest/"; PyInt 42]
  = Some "https://api.motorsportreg.com/rest/calendars/organization/42.json".
Proof. reflexivity. Qed.

Example format_not_rescanned :
  PyFormat.format "{0}members/{1}.json" [PyStr "p/"; PyStr "{0}"]
  = Some "p/members/{0}.json".
Proof. reflexivity. Qed.

Example format_missing_argument :
  PyFormat.format "{0}members/{1}.json" [PyStr "p/"] = None.
Proof. reflexivity. Qed.

Example assignments_100_instructors_only :
  url <$> issued (Mock.transport_fixed (Mock.response 200 "[]"))
            Mock.Response_json Mock.json_dumps
            (call_pr_assignments (PyInt 100)
               (Some (PyBool true)) (Some (PyBool false)))
            (MSRAPi (PyInt 7) (PyStr "user") (PyStr "secret") [])
  = ["https://api.motorsportreg.com/rest/events/100/assignments.json?fields=instructors"].
Proof. vm_compute. reflexivity. Qed.

(** A flag that is neither [True] nor [False] falls through every test of
    the chain, also past the test of the other flag. *)
Example assignments_flag_not_boolean :
  url <$> issued (Mock.transport_fixed (Mock.response 200 "[]"))
            Mock.Response_json Mock.json_dumps
            (call_pr_assignments (PyInt 100) (Some (PyBool true)) (Some PyNone))
            (MSRAPi (PyInt 7) (PyStr "user") (PyStr "secret") [])
  = ["https://api.motorsportreg.com/rest/events/100/assignments.json"].
Proof. vm_compute. reflexivity. Qed.

(** Before [__init__] has run there is no [url_prefix] to read. *)
Example call_on_blank_instance :
  invoke (Mock.transport_fixed (Mock.response 200 "[]"))
    Mock.Response_json Mock.json_dumps call_pr_members
    {| self := ∅; sent := [] |}
  = (Raises (AttributeError "url_prefix"), {| self := ∅; sent := [] |}).
Proof. vm_compute. reflexivity. Qed.

(** ** Instances of the theorems and inputs on which a reading fails *)

(** [pr_member_vehicle] for member 5 and vehicle 9 has no flags: its URL
    ends in ".json". *)
Lemma path_parameterized_url_witness :
  Contract.path_parameterized (call_pr_member_vehicle (PyInt 5) (PyInt 9)) = true
  ∧ Contract.fields (call_pr_member_vehicle (PyInt 5) (PyInt 9)) = []
  ∧ url <$> issued (Mock.transport_fixed (Mock.response 200 "[]"))
              Mock.Response_json Mock.json_dumps
              (call_pr_member_vehicle (PyInt 5) (PyInt 9))
              (MSRAPi (PyInt 7) (PyStr "user") (PyStr "secret") [])
    = ["https://api.motorsportreg.com/rest/members/5/vehicles/9.json"].
Proof.
  split; [reflexivity|]. split; [reflexivity|].
  pose proof (path_parameterized_url
                (Mock.transport_fixed (Mock.response 200 "[]"))
                Mock.Response_json Mock.json_dumps
                (PyInt 7) (PyStr "user") (PyStr "secret") []) as [Hall _].
  apply (Hall (call_pr_member_vehicle (PyInt 5) (PyInt 9))); reflexivity.
Defined.

(** The URL of [pr_attendees] for event 100 with the flag left out does
    not end in ".json": it goes on with the query. *)
Lemma attendees_url_does_not_end_in_json :
  let c := call_pr_attendees (PyInt 100) None in
  let urls := url <$> issued (Mock.transport_fixed (Mock.response 200 "[]"))
                        Mock.Response_json Mock.json_dumps c
                        (MSRAPi (PyInt 7) (PyStr "user") (PyStr "secret") []) in
  Contract.path_parameterized c = true
  ∧ urls = ["https://api.motorsportreg.com/rest/events/100/attendees.json?fields=questions"]
  ∧ urls ≠ [Contract.base +:+ Contract.endpoint c +:+ ".json"].
Proof.
  cbn zeta. rewrite issued_MSRAPi.
  split; [reflexivity|]. split; [reflexivity|].
  intros Heq. vm_compute in Heq. discriminate Heq.
Qed.

(** A transport that always answers 200 with the body "[1]": the member
    list comes back as the decoded document. *)
Lemma pass_through_witness :
  let transport := Mock.transport_fixed (Mock.response 200 "[1]") in
  (∀ req, ∃ r, transport req = Returns r
               ∧ Mock.Response_json (set_encoding r "utf-8")
                 = Returns (JList [JInt 1]))
  ∧ (invoke transport Mock.Response_json Mock.json_dumps call_pr_members
       (MSRAPi (PyInt 7) (PyStr "user") (PyStr "secret") [])).1
    = Returns (RJson (JList [JInt 1])).
Proof.
  cbn zeta.
  assert (∀ req, ∃ r,
            Mock.transport_fixed (Mock.response 200 "[1]") req = Returns r
            ∧ Mock.Response_json (set_encoding r "utf-8")
              = Returns (JList [JInt 1])) as Hfixed.
  { intros req. exists (Mock.response 200 "[1]"). split; reflexivity. }
  split; [exact Hfixed|].
  exact (pass_through (Mock.transport_fixed (Mock.response 200 "[1]"))
           Mock.Response_json Mock.json_dumps
           (PyInt 7) (PyStr "user") (PyStr "secret") []
           (JList [JInt 1]) call_pr_members Hfixed).
Defined.

(** A refused connection surfaces as raised; a 500 whose body is "[1]"
    comes back as the decoded list. *)
Lemma one_request_no_status_check_witness :
  let w := MSRAPi (PyInt 7) (PyStr "user") (PyStr "secret") [] in
  (invoke Mock.transport_down Mock.Response_json Mock.json_dumps
     (call_pr_profile (PyInt 3)) w).1
    = Raises (RequestException "connection refused")
  ∧ (invoke (Mock.transport_fixed (Mock.response 500 "[1]"))
       Mock.Response_json Mock.json_dumps (call_pr_profile (PyInt 3)) w).1
    = Returns (RJson (JList [JInt 1])).
Proof.
  cbn zeta. split.
  - destruct (one_request_no_status_check Mock.transport_down
                Mock.Response_json Mock.json_dumps
                (PyInt 7) (PyStr "user") (PyStr "secret") []
                (call_pr_profile (PyInt 3))) as (req & _ & Hfail & _).
    apply Hfail. reflexivity.
  - destruct (one_request_no_status_check
                (Mock.transport_fixed (Mock.response 500 "[1]"))
                Mock.Response_json Mock.json_dumps
                (PyInt 7) (PyStr "user") (PyStr "secret") []
                (call_pr_profile (PyInt 3))) as (req & _ & _ & Hanswer).
    exact (Hanswer (Mock.response 500 "[1]") eq_refl).
Defined.

(** [pr_post_logbook_entry] answered by a 500 whose body is the JSON text
    "[1]": the caller gets the response object, not the decoded list. *)
Lemma post_returns_body_undecoded :
  let r := Mock.response 500 "[1]" in
  let outcome :=
    (invoke (Mock.transport_fixed r) Mock.Response_json Mock.json_dumps
       (call_pr_post_logbook_entry JNull)
       (MSRAPi (PyInt 7) (PyStr "user") (PyStr "secret") [])).1 in
  Mock.Response_json (set_encoding r "utf-8") = Returns (JList [JInt 1])
  ∧ outcome = Returns (RResponse r)
  ∧ outcome ≠ RJson <$> Mock.Response_json (set_encoding r "utf-8").
Proof.
  cbn zeta. rewrite outcome_MSRAPi.
  split; [reflexivity|]. split; [reflexivity|].
  intros Heq. vm_compute in Heq. discriminate Heq.
Qed.

(** Two clients with unrelated credentials, one transport. *)
Lemma public_calendar_ignores_credentials_witness :
  let transport := Mock.transport_fixed (Mock.response 200 "[]") in
  (invoke transport Mock.Response_json Mock.json_dumps
     (call_public_calendar (PyInt 42))
     (MSRAPi (PyInt 7) (PyStr "user") (PyStr "secret") [])).1
  = (invoke transport Mock.Response_json Mock.json_dumps
       (call_public_calendar (PyInt 42))
       (MSRAPi (PyStr "other") PyNone (PyInt 0) [])).1.
Proof.
  cbn zeta.
  apply (public_calendar_ignores_credentials
           (Mock.transport_fixed (Mock.response 200 "[]"))
           (Mock.transport_fixed (Mock.response 200 "[]"))
           Mock.Response_json Mock.json_dumps
           (PyInt 7) (PyStr "user") (PyStr "secret")
           (PyStr "other") PyNone (PyInt 0) [] [] (PyInt 42)).
  reflexivity.
Defined.

(** A client whose [url_prefix] was pointed at a local server. *)
Lemma calls_read_current_attributes_witness :
  let w := {| self := <[ "url_prefix" := PyStr "http://localhost:8000/" ]>
                        (attrs (PyInt 7) (PyStr "user") (PyStr "secret"));
              sent := [] |} in
  self w !! "url_prefix" = Some (PyStr "http://localhost:8000/")
  ∧ url <$> sent (invoke (Mock.transport_fixed (Mock.response 200 "[]"))
                    Mock.Response_json Mock.json_dumps
                    (call_pr_profile (PyInt 3)) w).2
    = ["http://localhost:8000/profiles/3.json"].
Proof.
  cbn zeta. split; [reflexivity|].
  destruct (calls_read_current_attributes
              (Mock.transport_fixed (Mock.response 200 "[]"))
              Mock.Response_json Mock.json_dumps
              (PyStr "http://localhost:8000/")
              (PyInt 7) (PyStr "user") (PyStr "secret")
              (call_pr_profile (PyInt 3))
              {| self := <[ "url_prefix" := PyStr "http://localhost:8000/" ]>
                           (attrs (PyInt 7) (PyStr "user") (PyStr "secret"));
                 sent := [] |})
    as (req & Hrun & Hurl & _).
  - reflexivity.
  - intros _. split_and!; reflexivity.
  - rewrite Hrun. cbn [snd sent app fmap list_fmap]. rewrite Hurl.
    reflexivity.
Defined.

(** The integer 1 is not [True], and [None] is neither [True] nor
    [False]. *)
Lemma flags_compared_by_identity_witness :
  let w := MSRAPi (PyInt 7) (PyStr "user") (PyStr "secret") [] in
  url <$> issued (Mock.transport_fixed (Mock.response 200 "[]"))
            Mock.Response_json Mock.json_dumps
            (call_pr_attendees (PyInt 100) (Some (PyInt 1))) w
    = ["https://api.motorsportreg.com/rest/events/100/attendees.json"]
  ∧ url <$> issued (Mock.transport_fixed (Mock.response 200 "[]"))
              Mock.Response_json Mock.json_dumps
              (call_pr_assignments (PyInt 100) (Some (PyBool true)) (Some PyNone))
              w
    = ["https://api.motorsportreg.com/rest/events/100/assignments.json"].
Proof.
  cbn zeta.
  destruct (flags_compared_by_identity
              (Mock.transport_fixed (Mock.response 200 "[]"))
              Mock.Response_json Mock.json_dumps
              (PyInt 7) (PyStr "user") (PyStr "secret") []
              (PyInt 100) (PyInt 1) (PyInt 5)
              (PyInt 1) (PyBool true) PyNone) as [Hq Hit].
  split.
  - apply Hq. reflexivity.
  - apply Hit. reflexivity.
Defined.

(** An instance that holds the prefix but no credentials. *)
Lemma no_request_without_credentials_witness :
  let w := {| self := {[ "url_prefix" := PyStr Contract.base ]};
              sent := [] |} in
  self w !! "username" = None
  ∧ ∃ name,
      (invoke (Mock.transport_fixed (Mock.response 200 "[]"))
         Mock.Response_json Mock.json_dumps call_pr_members w).1
      = Raises (AttributeError name).
Proof.
  cbn zeta. split; [reflexivity|].
  apply (no_request_without_credentials
           (Mock.transport_fixed (Mock.response 200 "[]"))
           Mock.Response_json Mock.json_dumps call_pr_members
           {| self := {[ "url_prefix" := PyStr Contract.base ]};
              sent := [] |}).
  - reflexivity.
  - left. reflexivity.
Defined.

(** Profiles 1 and 2. *)
Lemma distinct_integer_ids_distinct_urls_witness :
  let w := MSRAPi (PyInt 7) (PyStr "user") (PyStr "secret") [] in
  url <$> issued (Mock.transport_fixed (Mock.response 200 "[]"))
            Mock.Response_json Mock.json_dumps (call_pr_profile (PyInt 1)) w
  ≠ url <$> issued (Mock.transport_fixed (Mock.response 200 "[]"))
              Mock.Response_json Mock.json_dumps (call_pr_profile (PyInt 2)) w.
Proof.
  cbn zeta.
  apply (distinct_integer_ids_distinct_urls
           (Mock.transport_fixed (Mock.response 200 "[]"))
           Mock.Response_json Mock.json_dumps
           (PyInt 7) (PyStr "user") (PyStr "secret") []
           None None None call_pr_profile 1 2).
  - do 4 apply list_elem_of_further. apply list_elem_of_here.
  - discriminate.
Defined.

(** The same body, once declared as Latin-1 and once with no charset. *)
Lemma declared_encoding_ignored_witness :
  let latin := {| status_code := 200; content := "[1]";
                  encoding := Some "ISO-8859-1" |} in
  let w := MSRAPi (PyInt 7) (PyStr "user") (PyStr "secret") [] in
  (invoke (Mock.transport_fixed latin)
     Mock.Response_json Mock.json_dumps call_pr_members w).1
  = (invoke (Mock.transport_fixed (Mock.response 200 "[1]"))
       Mock.Response_json Mock.json_dumps call_pr_members w).1.
Proof.
  cbn zeta.
  destruct (declared_encoding_ignored
              (Mock.transport_fixed
                 {| status_code := 200; content := "[1]";
                    encoding := Some "ISO-8859-1" |})
              (Mock.transport_fixed (Mock.response 200 "[1]"))
              Mock.Response_json Mock.json_dumps
              (PyInt 7) (PyStr "user") (PyStr "secret") [] call_pr_members
              {| status_code := 200; content := "[1]";
                 encoding := Some "ISO-8859-1" |}
              (Mock.response 200 "[1]"))
    as (req & _ & _ & Hsame).
  - reflexivity.
  - reflexivity.
  - reflexivity.
  - apply Hsame; reflexivity.
Defined.
